(** * icd9: first-character classification of ICD-9 codes (src/is.cpp)

    A shallow embedding of the five functions of [is.cpp] and the
    properties its specification states about them.

    Representation.  A [const char*] is viewed as the characters stored from
    the pointer onwards, without the final terminator: reading at the end of
    the list reads the terminating NUL.  A [std::string] may hold NUL
    characters of its own, so the list is not assumed to be free of them;
    the code decides where a C string ends, not the model. *)

From Stdlib Require Import ZArith Ascii String Bool Lia.
From stdpp Require Import base list strings.

Local Open Scope string_scope.
Local Open Scope char_scope.

(** ** C strings *)

Module Cstr.

Definition NUL : ascii := "000".

(** [*p] *)
Definition deref (p : string) : ascii :=
  match p with
  | EmptyString => NUL
  | String c _ => c
  end.

(** The characters of the C string at [p]: those before the first NUL. *)
Fixpoint chars (p : string) : list ascii :=
  match p with
  | EmptyString => []
  | String c p' => if Ascii.eqb c NUL then [] else c :: chars p'
  end.

(** A run of [n] ASCII spaces. *)
Fixpoint spaces (n : nat) : string :=
  match n with
  | O => EmptyString
  | S n' => String " " (spaces n')
  end.

End Cstr.

Import Cstr.

(** ** The single-string classifiers *)

(** [while ( *s == ' ') ++s;]  The terminator is not a space, so the loop
    stops at the end of the string at the latest. *)
Fixpoint skip_spaces (s : string) : string :=
  match s with
  | EmptyString => s
  | String c s' => if Ascii.eqb c " " then skip_spaces s' else s
  end.

(** [while ( *x) { if ( *s == *x) return true; ++x; } return false;]
    with [c] the value of [*s], which the loop does not change. *)
Fixpoint scan_set (c : ascii) (x : string) : bool :=
  match x with
  | EmptyString => false
  | String xc x' =>
      if Ascii.eqb xc NUL then false
      else if Ascii.eqb c xc then true
      else scan_set c x'
  end.

Definition icd9IsASingle (s x : string) : bool :=
  let s := skip_spaces s in
  scan_set (deref s) x.

Definition icd9IsASingleV (s : string) : bool :=
  let s := skip_spaces s in
  Ascii.eqb (deref s) "V" || Ascii.eqb (deref s) "v".

Definition icd9IsASingleE (s : string) : bool :=
  let s := skip_spaces s in
  Ascii.eqb (deref s) "E" || Ascii.eqb (deref s) "e".

Definition icd9IsASingleVE (s : string) : bool :=
  let s := skip_spaces s in
  Ascii.eqb (deref s) "V" || Ascii.eqb (deref s) "E"
  || Ascii.eqb (deref s) "v" || Ascii.eqb (deref s) "e".

(** ** The batch classifier *)

(** Integer types of the LP64 and LLP64 platforms the package is built for:
    [int] has 32 bits, [std::size_t] has 64. *)
Module Abi.

Definition INT_MAX : Z := 2147483647.

(** [int len = sv.size();] converts a [size_t] to [int]: the value is
    reduced modulo 2^32 into the range of [int] (what C++20 prescribes and
    what GCC, Clang and MSVC define for earlier standards). *)
Definition int_of_size_t (n : Z) : Z := ((n + 2 ^ 31) mod 2 ^ 32 - 2 ^ 31)%Z.

End Abi.

Import Abi.

(** How a call ends: it returns a value, an exception leaves it, or it
    touches a vector element that does not exist. *)
Inductive outcome (A : Type) : Type :=
| Returned (a : A)
| Thrown
| Undefined.

Arguments Returned {A} a.
Arguments Thrown {A}.
Arguments Undefined {A}.

#[global] Instance outcome_ret : MRet outcome := @Returned.

#[global] Instance outcome_bind : MBind outcome := fun A B f m =>
  match m with
  | Returned a => f a
  | Thrown => Thrown
  | Undefined => Undefined
  end.

(** [sv.size()] *)
Definition vector_size {A : Type} (v : list A) : Z := Z.of_nat (length v).

(** [std::vector<bool> out(len);] with [len] an [int].  The constructor takes
    a [size_t]: a negative [len] arrives as at least 2^64 - 2^31 elements, a
    request that no allocator grants, and the constructor throws
    ([std::length_error] or [std::bad_alloc]).  Otherwise the vector holds
    [len] times [false]; memory is taken to suffice for that. *)
Definition vector_bool (len : Z) : outcome (list bool) :=
  if (len <? 0)%Z then Thrown
  else Returned (replicate (Z.to_nat len) false).

(** [v[i]], read: [operator[]] does not check the index. *)
Definition index {A : Type} (v : list A) (i : Z) : outcome A :=
  if (i <? 0)%Z then Undefined
  else match v !! Z.to_nat i with
       | Some a => Returned a
       | None => Undefined
       end.

(** [v[i] = a] *)
Definition assign {A : Type} (v : list A) (i : Z) (a : A) : outcome (list A) :=
  if (0 <=? i)%Z && (i <? vector_size v)%Z then Returned (<[Z.to_nat i := a]> v)
  else Undefined.

(** [a != b] on [bool] *)
Definition bool_neq (a b : bool) : bool := negb (Bool.eqb a b).

(** [for (int i = 0; i < len; ++i) out[i] = invert != icd9IsASingle(sv[i].c_str(), x);]
    with [n] the number of values of [i] still to come, [len - i].  Since
    [i < len <= INT_MAX] inside the body, [++i] does not overflow. *)
Fixpoint icd9IsA_loop (sv : list string) (x : string) (invert : bool)
    (n : nat) (i : Z) (out : list bool) : outcome (list bool) :=
  match n with
  | O => Returned out
  | S n' =>
      s ← index sv i;
      out ← assign out i (bool_neq invert (icd9IsASingle s x));
      icd9IsA_loop sv x invert n' (i + 1)%Z out
  end.

Definition icd9IsA (sv : list string) (x : string) (invert : bool)
    : outcome (list bool) :=
  let len := int_of_size_t (vector_size sv) in
  out ← vector_bool len;
  icd9IsA_loop sv x invert (Z.to_nat (len - 0)) 0%Z out.

(** [r[i]] for the vector a call returned, if it returned one that long. *)
Definition result_at (r : outcome (list bool)) (i : nat) : option bool :=
  match r with
  | Returned out => out !! i
  | _ => None
  end.

(** ** Facts about the two loops *)

Section Loops.

Lemma chars_no_NUL x : ~ In NUL (chars x).
Proof.
  induction x as [|xc x IH]; simpl; [tauto|].
  destruct (Ascii.eqb_spec xc NUL) as [->|Hne]; simpl; [tauto|].
  intros [Heq|Hin]; [congruence | exact (IH Hin)].
Qed.

(** The membership loop decides membership in the C string [x]. *)
Lemma scan_set_In c x : scan_set c x = true <-> In c (chars x).
Proof.
  induction x as [|xc x IH]; simpl.
  - split; [discriminate | tauto].
  - destruct (Ascii.eqb_spec xc NUL) as [->|Hne]; simpl.
    + split; [discriminate | tauto].
    + destruct (Ascii.eqb_spec c xc) as [->|Hcx].
      * split; auto.
      * rewrite IH. split; [auto | intros [Heq|Hin]; congruence].
Qed.

Lemma scan_set_not_In c x : scan_set c x = false <-> ~ In c (chars x).
Proof.
  rewrite <- scan_set_In. destruct (scan_set c x); split; congruence.
Qed.

Lemma scan_set_NUL x : scan_set NUL x = false.
Proof. apply scan_set_not_In, chars_no_NUL. Qed.

Lemma skip_spaces_run n s : skip_spaces (spaces n +:+ s) = skip_spaces s.
Proof. induction n as [|n IH]; simpl; auto. Qed.

Lemma skip_spaces_stop c rest :
  c <> " " -> skip_spaces (String c rest) = String c rest.
Proof.
  intros Hc. simpl. destruct (Ascii.eqb_spec c " "); [contradiction | reflexivity].
Qed.

Lemma skip_spaces_all n : skip_spaces (spaces n) = EmptyString.
Proof. induction n as [|n IH]; simpl; auto. Qed.

(** Every string is a run of spaces, followed either by nothing or by a
    character that is not a space. *)
Lemma string_shape s :
  (exists n, s = spaces n) \/
  (exists n c rest, c <> " " /\ s = spaces n +:+ String c rest).
Proof.
  induction s as [|a s IH].
  - left. exists 0%nat. reflexivity.
  - destruct (Ascii.eqb_spec a " ") as [->|Ha].
    + destruct IH as [[n ->]|(n & c & rest & Hc & ->)].
      * left. exists (S n). reflexivity.
      * right. exists (S n), c, rest. split; [assumption | reflexivity].
    + right. exists 0%nat, a, s. split; [assumption | reflexivity].
Qed.

Lemma icd9IsASingle_run n s x :
  icd9IsASingle (spaces n +:+ s) x = icd9IsASingle s x.
Proof. unfold icd9IsASingle. now rewrite skip_spaces_run. Qed.

Lemma icd9IsASingle_head c rest x :
  c <> " " -> icd9IsASingle (String c rest) x = scan_set c x.
Proof. intros Hc. unfold icd9IsASingle. now rewrite skip_spaces_stop. Qed.

End Loops.

(** ** Facts about the batch loop *)

Section Batch.

Lemma int_of_size_t_range n :
  (- 2 ^ 31 <= int_of_size_t n <= INT_MAX)%Z.
Proof.
  unfold int_of_size_t, INT_MAX.
  pose proof (Z.mod_pos_bound (n + 2 ^ 31) (2 ^ 32) ltac:(lia)). lia.
Qed.

(** A size that fits [int] is converted to itself. *)
Lemma int_of_size_t_fits n :
  (0 <= n <= INT_MAX)%Z -> int_of_size_t n = n.
Proof.
  unfold int_of_size_t, INT_MAX. intros Hn.
  rewrite Z.mod_small by lia. lia.
Qed.

(** The conversion never yields more than the size. *)
Lemma int_of_size_t_le n : (0 <= n)%Z -> (int_of_size_t n <= n)%Z.
Proof.
  unfold int_of_size_t. intros Hn.
  pose proof (Z.mod_le (n + 2 ^ 31) (2 ^ 32) ltac:(lia) ltac:(lia)). lia.
Qed.

Lemma bool_neq_xorb a b : bool_neq a b = xorb a b.
Proof. now destruct a, b. Qed.

Lemma index_lookup {A : Type} (v : list A) (i : nat) a :
  v !! i = Some a -> index v (Z.of_nat i) = Returned a.
Proof.
  intros Hi. unfold index.
  destruct (Z.ltb_spec (Z.of_nat i) 0); [lia|].
  now rewrite Nat2Z.id, Hi.
Qed.

Lemma assign_insert {A : Type} (v : list A) (i : nat) a :
  (i < length v)%nat ->
  assign v (Z.of_nat i) a = Returned (<[i := a]> v).
Proof.
  intros Hi. unfold assign, vector_size.
  destruct (Z.leb_spec 0 (Z.of_nat i)); [|lia].
  destruct (Z.ltb_spec (Z.of_nat i) (Z.of_nat (length v))); [|lia].
  simpl. now rewrite Nat2Z.id.
Qed.

Variables (sv : list string) (x : string) (invert : bool).

(** Invariant of the loop: [n] more rounds from index [i] overwrite the
    elements [i .. i+n-1] of [out] with the classification of the same
    elements of [sv], and leave the rest of [out] alone.  Every element
    access is within range. *)
Lemma icd9IsA_loop_spec n : forall (i : nat) (out : list bool),
  (i + n <= length sv)%nat ->
  (i + n <= length out)%nat ->
  icd9IsA_loop sv x invert n (Z.of_nat i) out =
  Returned (take i out
            ++ ((fun s => xorb invert (icd9IsASingle s x)) <$> take n (drop i sv))
            ++ drop (i + n) out)%list.
Proof.
  induction n as [|n IH]; intros i out Hsv Hout.
  - cbn [icd9IsA_loop]. rewrite Nat.add_0_r, take_0. cbn [fmap list_fmap app].
    now rewrite take_drop.
  - destruct (lookup_lt_is_Some_2 sv i ltac:(lia)) as [s Hs].
    cbn [icd9IsA_loop].
    rewrite (index_lookup _ _ _ Hs). cbn [mbind outcome_bind].
    rewrite assign_insert by lia. cbn [mbind outcome_bind].
    replace (Z.of_nat i + 1)%Z with (Z.of_nat (S i)) by lia.
    rewrite IH by (rewrite ?length_insert; lia).
    f_equal.
    rewrite (take_S_r _ i (bool_neq invert (icd9IsASingle s x)))
      by (apply list_lookup_insert_eq; lia).
    rewrite take_insert_ge by lia.
    rewrite drop_insert_lt by lia.
    rewrite (drop_S _ _ _ Hs). cbn [take fmap list_fmap].
    rewrite bool_neq_xorb, <- app_assoc. simpl.
    now replace (S (i + n)) with (i + S n)%nat by lia.
Qed.

(** What a call does, for a vector of any size: with [len] the size as
    [int], it throws when [len] is negative and otherwise returns the
    classification of the first [len] strings. *)
Lemma icd9IsA_spec :
  icd9IsA sv x invert =
  let len := int_of_size_t (vector_size sv) in
  if (len <? 0)%Z then Thrown
  else Returned ((fun s => xorb invert (icd9IsASingle s x))
                   <$> take (Z.to_nat len) sv).
Proof.
  unfold icd9IsA, vector_bool. cbv zeta.
  pose proof (int_of_size_t_le (vector_size sv) ltac:(unfold vector_size; lia)) as Hle.
  unfold vector_size in *.
  destruct (Z.ltb_spec (int_of_size_t (Z.of_nat (length sv))) 0) as [Hneg|Hpos];
    [reflexivity|].
  cbn [mbind outcome_bind].
  rewrite Z.sub_0_r.
  rewrite (icd9IsA_loop_spec _ 0%nat) by (rewrite ?length_replicate; lia).
  rewrite take_0, drop_0. simpl.
  rewrite drop_ge by (rewrite length_replicate; lia).
  now rewrite app_nil_r.
Qed.

(** A vector whose size fits [int] is classified element by element. *)
Lemma icd9IsA_fits :
  (vector_size sv <= INT_MAX)%Z ->
  icd9IsA sv x invert =
  Returned ((fun s => xorb invert (icd9IsASingle s x)) <$> sv).
Proof.
  intros Hfit. rewrite icd9IsA_spec. cbv zeta.
  rewrite int_of_size_t_fits by (unfold vector_size in *; lia).
  unfold vector_size.
  destruct (Z.ltb_spec (Z.of_nat (length sv)) 0); [lia|].
  now rewrite Nat2Z.id, take_ge by lia.
Qed.

End Batch.

(** ** The single-string classifier *)

(** C1.  For every string [s] and every candidate set [x] (non-empty or not),
    [icd9IsASingle] skips the leading spaces of [s] and answers by the first
    character after them: when [s] is nothing but spaces the answer is
    [false]; when a character [c] other than a space follows the spaces the
    answer is [true] if [c] is one of the characters of [x] and [false] if it
    is not.  Every string has one of these two shapes, and the empty string
    gives [false]. *)
Theorem icd9IsASingle_first_nonspace (s x : string) :
  (forall n, s = spaces n -> icd9IsASingle s x = false) /\
  (forall n c rest, c <> " " -> s = spaces n +:+ String c rest ->
     (In c (chars x) -> icd9IsASingle s x = true) /\
     (~ In c (chars x) -> icd9IsASingle s x = false)) /\
  ((exists n, s = spaces n) \/
   (exists n c rest, c <> " " /\ s = spaces n +:+ String c rest)) /\
  icd9IsASingle EmptyString x = false.
Proof.
  repeat split.
  - intros n ->. unfold icd9IsASingle. rewrite skip_spaces_all. apply scan_set_NUL.
  - intros Hin. subst s.
    rewrite icd9IsASingle_run, icd9IsASingle_head by assumption.
    now apply scan_set_In.
  - intros Hout. subst s.
    rewrite icd9IsASingle_run, icd9IsASingle_head by assumption.
    now apply scan_set_not_In.
  - apply string_shape.
  - apply scan_set_NUL.
Qed.

Lemma icd9IsASingle_first_nonspace_witness :
  icd9IsASingle "  V10" "EV" = true /\
  icd9IsASingle "  427" "EV" = false /\
  icd9IsASingle "   " "EV" = false.
Proof.
  destruct (icd9IsASingle_first_nonspace "  V10" "EV") as (_ & Hv & _).
  destruct (icd9IsASingle_first_nonspace "  427" "EV") as (_ & H4 & _).
  destruct (icd9IsASingle_first_nonspace "   " "EV") as (Hs & _).
  split; [|split].
  - apply (Hv 2%nat "V" "10"%string); [discriminate | reflexivity | simpl; auto].
  - apply (H4 2%nat "4" "27"%string); [discriminate | reflexivity |].
    simpl. intros [H|[H|[]]]; discriminate.
  - apply (Hs 3%nat). reflexivity.
Defined.

(** C3, as the specification has it, fails when the matched character is
    itself a space: the space is skipped with the others and the character
    after it decides.  Here the set holds V and the space, and the string is
    one space, the member space, then 427. *)
Lemma space_member_counterexample :
  let c := " "%char in
  let rest := "427"%string in
  let x := "V "%string in
  In c (chars x) /\
  icd9IsASingle (spaces 1 +:+ String c rest) x = false.
Proof. split; [simpl; auto | reflexivity]. Qed.

(** C3, amended.  For every string of the form spaces + [c] + rest where [c]
    is a character of the target set other than the space, [icd9IsASingle] is
    [true], whatever rest is. *)
Theorem icd9IsASingle_member_after_spaces (n : nat) (c : ascii) (rest x : string) :
  c <> " " ->
  In c (chars x) ->
  icd9IsASingle (spaces n +:+ String c rest) x = true.
Proof.
  intros Hc Hin.
  rewrite icd9IsASingle_run, icd9IsASingle_head by assumption.
  now apply scan_set_In.
Qed.

Lemma icd9IsASingle_member_after_spaces_witness :
  "E" <> " " /\ In "E" (chars "VE") /\
  icd9IsASingle (spaces 3 +:+ String "E" "950.1") "VE" = true.
Proof.
  split; [discriminate|]. split; [simpl; auto|].
  apply (icd9IsASingle_member_after_spaces 3 "E" "950.1" "VE");
    [discriminate | simpl; auto].
Defined.

(** ** The fixed-set classifiers *)

(** C4.  [icd9IsASingleVE] is the disjunction of [icd9IsASingleV] and
    [icd9IsASingleE], for every string. *)
Theorem icd9IsASingleVE_is_V_or_E (s : string) :
  icd9IsASingleVE s = icd9IsASingleV s || icd9IsASingleE s.
Proof.
  unfold icd9IsASingleVE, icd9IsASingleV, icd9IsASingleE. cbv zeta.
  generalize (deref (skip_spaces s)). intros c.
  destruct (Ascii.eqb c "V"), (Ascii.eqb c "E"), (Ascii.eqb c "v"),
    (Ascii.eqb c "e"); reflexivity.
Qed.

(** C6.  Each fixed-set classifier agrees, on every string, with the generic
    classifier called with its set: [icd9IsASingleV] with any listing of
    {V, v}, [icd9IsASingleE] with any listing of {E, e}, [icd9IsASingleVE]
    with any listing of {V, v, E, e}.  Leading spaces are therefore skipped the same way by all four. *)
Theorem fixed_sets_are_generic (s : string) :
  (forall x, (forall c, In c (chars x) <-> c = "V" \/ c = "v") ->
     icd9IsASingleV s = icd9IsASingle s x) /\
  (forall x, (forall c, In c (chars x) <-> c = "E" \/ c = "e") ->
     icd9IsASingleE s = icd9IsASingle s x) /\
  (forall x, (forall c, In c (chars x) <-> c = "V" \/ c = "v" \/ c = "E" \/ c = "e") ->
     icd9IsASingleVE s = icd9IsASingle s x).
Proof.
  unfold icd9IsASingleVE, icd9IsASingleV, icd9IsASingleE, icd9IsASingle.
  cbv zeta. generalize (deref (skip_spaces s)). intros c.
  repeat split; intros x Hx; apply Bool.eq_iff_eq_true;
    rewrite scan_set_In, Hx, !Bool.orb_true_iff, !Ascii.eqb_eq; tauto.
Qed.

Lemma fixed_sets_are_generic_witness :
  icd9IsASingleV " v85" = icd9IsASingle " v85" "Vv" /\
  icd9IsASingleE " v85" = icd9IsASingle " v85" "Ee" /\
  icd9IsASingleVE " v85" = icd9IsASingle " v85" "VvEe".
Proof.
  destruct (fixed_sets_are_generic " v85") as (Hv & He & Hve).
  split; [|split].
  - apply (Hv "Vv"%string). intros c. simpl. intuition congruence.
  - apply (He "Ee"%string). intros c. simpl. intuition congruence.
  - apply (Hve "VvEe"%string). intros c. simpl. intuition congruence.
Defined.

(** C8.  Membership in the candidate set is exact equality of characters,
    without case folding: after the spaces, a character other than a space
    gives [true] exactly when it occurs in [x].  So the generic classifier
    with the set "V" rejects "v10", which [icd9IsASingleV] accepts. *)
Theorem generic_set_is_case_sensitive :
  (forall c rest x, c <> " " ->
     (icd9IsASingle (String c rest) x = true <-> In c (chars x))) /\
  icd9IsASingle "v10" "V" = false /\
  icd9IsASingleV "v10" = true /\
  (exists s, icd9IsASingle s "V" <> icd9IsASingleV s).
Proof.
  split; [|split; [|split]].
  - intros c rest x Hc. rewrite icd9IsASingle_head by assumption. apply scan_set_In.
  - reflexivity.
  - reflexivity.
  - exists "v10"%string. discriminate.
Qed.

Lemma generic_set_is_case_sensitive_witness :
  "v" <> " " /\ (icd9IsASingle "v10" "V" = true <-> In "v" (chars "V")).
Proof.
  split; [discriminate|].
  apply (proj1 generic_set_is_case_sensitive "v" "10"%string "V"%string). discriminate.
Defined.

(** C10.  Only the space is skipped.  For every target set, a string that
    begins with a character other than the space which is not in the set,
    a tab for one, gives [false], whatever follows, a member of the set
    included: the tab before "V10" makes the set "V" answer [false].  What
    follows such a first character never changes the answer. *)
Theorem only_space_is_skipped :
  (forall x c rest, c <> " " -> ~ In c (chars x) ->
     icd9IsASingle (String c rest) x = false) /\
  (forall x rest, ~ In "009" (chars x) ->
     icd9IsASingle (String "009" rest) x = false) /\
  (forall x c rest rest', c <> " " ->
     icd9IsASingle (String c rest) x = icd9IsASingle (String c rest') x) /\
  icd9IsASingle (String "009" "V10") "V" = false.
Proof.
  assert (Hgen : forall x c rest, c <> " " -> ~ In c (chars x) ->
            icd9IsASingle (String c rest) x = false).
  { intros x c rest Hc Hout. rewrite icd9IsASingle_head by assumption.
    now apply scan_set_not_In. }
  split; [exact Hgen|]. split; [|split; [|reflexivity]].
  - intros x rest Hout. apply Hgen; [discriminate | assumption].
  - intros x c rest rest' Hc. now rewrite !icd9IsASingle_head by assumption.
Qed.

Lemma only_space_is_skipped_witness :
  "009" <> " " /\ ~ In "009" (chars "V") /\
  icd9IsASingle (String "009" "V10") "V" = false.
Proof.
  assert (Hout : ~ In "009" (chars "V")).
  { simpl. intros [H|[]]. discriminate. }
  split; [discriminate|]. split; [exact Hout|].
  apply (proj1 only_space_is_skipped "V"%string "009" "V10"%string); [discriminate | exact Hout].
Defined.

(** ** The batch classifier *)

Section BatchSize.

Variables (x : string) (invert : bool).

Lemma vector_size_replicate {A : Type} (n : Z) (a : A) :
  (0 <= n)%Z -> vector_size (replicate (Z.to_nat n) a) = n.
Proof.
  intros Hn. unfold vector_size. rewrite length_replicate. now apply Z2Nat.id.
Qed.

(** [icd9IsA_spec] for a vector whose size is known. *)
Lemma icd9IsA_of_size (sv : list string) (n : Z) :
  vector_size sv = n ->
  icd9IsA sv x invert =
  if (int_of_size_t n <? 0)%Z then Thrown
  else Returned ((fun s => xorb invert (icd9IsASingle s x))
                   <$> take (Z.to_nat (int_of_size_t n)) sv).
Proof. intros <-. apply icd9IsA_spec. Qed.

(** No call touches an element that does not exist. *)
Lemma icd9IsA_defined (sv : list string) : icd9IsA sv x invert <> Undefined.
Proof.
  rewrite icd9IsA_spec. cbv zeta.
  destruct (int_of_size_t (vector_size sv) <? 0)%Z; discriminate.
Qed.

End BatchSize.

(** C2.  The claim holds for every vector of at most [INT_MAX] strings
    ([icd9IsA_fits]) and fails beyond, because the size is narrowed to [int]
    before the output is built.  For 2^32 strings the size becomes 0 and the
    call returns the empty vector; for 2^31 strings it becomes negative and
    building the output throws. *)
Theorem icd9IsA_size_narrowed_to_int :
  let sv := replicate (Z.to_nat 4294967296) EmptyString in
  let tv := replicate (Z.to_nat 2147483648) EmptyString in
  vector_size sv = 4294967296%Z /\
  icd9IsA sv "V" false = Returned [] /\
  vector_size tv = 2147483648%Z /\
  icd9IsA tv "V" false = Thrown.
Proof.
  intros sv tv.
  assert (Hsv : vector_size sv = 4294967296%Z)
    by (apply vector_size_replicate; discriminate).
  assert (Htv : vector_size tv = 2147483648%Z)
    by (apply vector_size_replicate; discriminate).
  split; [exact Hsv|]. split; [|split; [exact Htv|]].
  - rewrite (icd9IsA_of_size "V" false sv 4294967296 Hsv).
    change (int_of_size_t 4294967296) with 0%Z.
    change (0 <? 0)%Z with false. cbv iota.
    change (Z.to_nat 0) with 0%nat.
    rewrite take_0. reflexivity.
  - rewrite (icd9IsA_of_size "V" false tv 2147483648 Htv).
    change (int_of_size_t 2147483648) with (-2147483648)%Z.
    reflexivity.
Qed.

(** C5.  At every index, what a call with [invert = true] returns is the
    negation of what the call with [invert = false] returns there: the two
    results have an element at the same indices, and those elements are
    opposite.  For a vector whose size fits [int] these indices are the
    indices of the vector. *)
Theorem icd9IsA_invert_negates (sv : list string) (x : string) (i : nat) :
  result_at (icd9IsA sv x true) i
  = negb <$> result_at (icd9IsA sv x false) i /\
  ((vector_size sv <= INT_MAX)%Z -> (i < length sv)%nat ->
   is_Some (result_at (icd9IsA sv x false) i)).
Proof.
  split.
  - rewrite !icd9IsA_spec. cbv zeta.
    destruct (int_of_size_t (vector_size sv) <? 0)%Z; [reflexivity|].
    unfold result_at. rewrite !list_lookup_fmap.
    destruct (take _ sv !! i) as [s|]; [|reflexivity].
    simpl. now destruct (icd9IsASingle s x).
  - intros Hfit Hi. rewrite icd9IsA_fits by assumption.
    unfold result_at. apply lookup_lt_is_Some. now rewrite length_fmap.
Qed.

Lemma icd9IsA_invert_negates_witness :
  result_at (icd9IsA ["V10"; " E950"; "427"]%string "V" true) 1 = Some true /\
  is_Some (result_at (icd9IsA ["V10"; " E950"; "427"]%string "V" false) 1).
Proof.
  destruct (icd9IsA_invert_negates ["V10"; " E950"; "427"]%string "V" 1)
    as [Hneg Hsome].
  split.
  - rewrite Hneg. reflexivity.
  - apply Hsome; [discriminate | simpl; lia].
Defined.

(** C7.  The example of the specification: of "V10", " E950" and "427", with
    the set "V" and no inversion, only the first is accepted. *)
Theorem icd9IsA_example :
  icd9IsA ["V10"; " E950"; "427"]%string "V" false
  = Returned [true; false; false].
Proof. vm_compute. reflexivity. Qed.

(** A classifier that rejects everything yields [false] throughout. *)
Lemma fmap_all_false (x : string) (l : list string) :
  (forall s, icd9IsASingle s x = false) ->
  (fun s => xorb false (icd9IsASingle s x)) <$> l = replicate (length l) false.
Proof.
  intros Hx. induction l as [|s l IH]; [reflexivity|].
  cbn [fmap list_fmap length replicate]. rewrite Hx. f_equal. exact IH.
Qed.

(** C9.  With the empty candidate set [icd9IsASingle] returns [false] for
    every string; it has no other way to end.  Hence every vector that
    [icd9IsA] returns for the empty set without inversion holds [false]
    only, and for a vector whose size fits [int] it returns one [false] per
    string. *)
Theorem empty_set_rejects_all :
  (forall s, icd9IsASingle s EmptyString = false) /\
  (forall sv out, icd9IsA sv EmptyString false = Returned out ->
     out = replicate (length out) false) /\
  (forall sv, (vector_size sv <= INT_MAX)%Z ->
     icd9IsA sv EmptyString false = Returned (replicate (length sv) false)).
Proof.
  assert (Hx : forall s, icd9IsASingle s EmptyString = false) by reflexivity.
  split; [exact Hx|]. split.
  - intros sv out. rewrite icd9IsA_spec. cbv zeta.
    destruct (int_of_size_t (vector_size sv) <? 0)%Z; [discriminate|].
    intros [= <-]. rewrite (fmap_all_false _ _ Hx).
    now rewrite length_replicate.
  - intros sv Hfit. rewrite icd9IsA_fits by assumption.
    f_equal. apply fmap_all_false, Hx.
Qed.

Lemma empty_set_rejects_all_witness :
  icd9IsA [" V10"; EmptyString; "E9"]%string EmptyString false
  = Returned [false; false; false].
Proof.
  apply (proj2 (proj2 empty_set_rejects_all) [" V10"; EmptyString; "E9"]%string).
  discriminate.
Defined.

(** ** Further properties of the single-string classifiers *)

Section Shapes.

Lemma deref_skip_run_head n c rest :
  c <> " " -> deref (skip_spaces (spaces n +:+ String c rest)) = c.
Proof. intros Hc. now rewrite skip_spaces_run, skip_spaces_stop. Qed.

Lemma deref_skip_blank n : deref (skip_spaces (spaces n)) = NUL.
Proof. now rewrite skip_spaces_all. Qed.

Lemma deref_skip_cut n rest :
  deref (skip_spaces (spaces n +:+ String NUL rest)) = NUL.
Proof. apply deref_skip_run_head. discriminate. Qed.

(** The character the classifiers test: the terminator for a blank string,
    and otherwise the first character that is not a space. *)
Lemma tested_char s :
  (deref (skip_spaces s) = NUL /\ exists n, s = spaces n) \/
  (exists n c rest, c <> " " /\ s = spaces n +:+ String c rest /\
     deref (skip_spaces s) = c).
Proof.
  destruct (string_shape s) as [[n ->]|(n & c & rest & Hc & ->)].
  - left. split; [apply deref_skip_blank | now exists n].
  - right. exists n, c, rest. repeat split; [assumption | now apply deref_skip_run_head].
Qed.

End Shapes.

(** X1.  Leading spaces never change an answer: each of the four
    classifiers gives the same result for a string and for that string behind
    any run of spaces. *)
Theorem leading_spaces_ignored (n : nat) (s x : string) :
  icd9IsASingle (spaces n +:+ s) x = icd9IsASingle s x /\
  icd9IsASingleV (spaces n +:+ s) = icd9IsASingleV s /\
  icd9IsASingleE (spaces n +:+ s) = icd9IsASingleE s /\
  icd9IsASingleVE (spaces n +:+ s) = icd9IsASingleVE s.
Proof.
  unfold icd9IsASingle, icd9IsASingleV, icd9IsASingleE, icd9IsASingleVE.
  cbv zeta. rewrite skip_spaces_run. repeat split.
Qed.

(** X2.  A string with nothing to test is rejected by all four classifiers,
    whatever the set: the empty string, a string of spaces only, and a
    string that holds a NUL right after its leading spaces. *)
Theorem blank_is_rejected (n : nat) (rest x : string) :
  (icd9IsASingle (spaces n) x = false /\
   icd9IsASingleV (spaces n) = false /\
   icd9IsASingleE (spaces n) = false /\
   icd9IsASingleVE (spaces n) = false) /\
  (icd9IsASingle (spaces n +:+ String NUL rest) x = false /\
   icd9IsASingleV (spaces n +:+ String NUL rest) = false /\
   icd9IsASingleE (spaces n +:+ String NUL rest) = false /\
   icd9IsASingleVE (spaces n +:+ String NUL rest) = false).
Proof.
  unfold icd9IsASingle, icd9IsASingleV, icd9IsASingleE, icd9IsASingleVE.
  cbv zeta. rewrite deref_skip_blank, deref_skip_cut, scan_set_NUL.
  repeat split.
Qed.

(** X3.  The fixed-set classifiers accept exactly the strings made of a run
    of spaces, one of their letters, and anything after it: V or v for
    [icd9IsASingleV], E or e for [icd9IsASingleE], any of the four for
    [icd9IsASingleVE]. *)
Theorem fixed_sets_accept_exactly (s : string) :
  (icd9IsASingleV s = true <->
   exists n c rest, (c = "V" \/ c = "v") /\ s = spaces n +:+ String c rest) /\
  (icd9IsASingleE s = true <->
   exists n c rest, (c = "E" \/ c = "e") /\ s = spaces n +:+ String c rest) /\
  (icd9IsASingleVE s = true <->
   exists n c rest, (c = "V" \/ c = "E" \/ c = "v" \/ c = "e") /\
     s = spaces n +:+ String c rest).
Proof.
  unfold icd9IsASingleV, icd9IsASingleE, icd9IsASingleVE. cbv zeta.
  repeat split.
  all: try (intros (n & c & rest & Hc & ->);
            rewrite deref_skip_run_head by (intuition (subst; discriminate));
            rewrite !Bool.orb_true_iff, !Ascii.eqb_eq; tauto).
  all: intros Hacc;
    destruct (tested_char s) as [[Hnul _]|(n & c & rest & _ & Hs & Hd)];
    [ rewrite Hnul in Hacc; discriminate
    | rewrite Hd in Hacc; exists n, c, rest; split; [|exact Hs];
      rewrite !Bool.orb_true_iff, !Ascii.eqb_eq in Hacc; tauto ].
Qed.

(** X4.  No string is both a V code and an E code: [icd9IsASingleV] and
    [icd9IsASingleE] are never both true. *)
Theorem V_and_E_exclude (s : string) :
  icd9IsASingleV s && icd9IsASingleE s = false.
Proof.
  unfold icd9IsASingleV, icd9IsASingleE. cbv zeta.
  generalize (deref (skip_spaces s)). intros c.
  destruct (Ascii.eqb_spec c "V") as [->|_]; [reflexivity|].
  destruct (Ascii.eqb_spec c "v") as [->|_]; reflexivity.
Qed.

(** X5.  The generic classifier treats its second argument as a set.  When
    the characters of [z] are those of [x] together with those of [y], the
    answer for [z] is the disjunction of the answers for [x] and for [y]; in
    particular the order and the repetitions of the characters do not
    matter. *)
Theorem icd9IsASingle_union (s x y z : string) :
  (forall c, In c (chars z) <-> In c (chars x) \/ In c (chars y)) ->
  icd9IsASingle s z = icd9IsASingle s x || icd9IsASingle s y.
Proof.
  intros Hz. unfold icd9IsASingle. cbv zeta.
  generalize (deref (skip_spaces s)). intros c.
  apply Bool.eq_iff_eq_true.
  rewrite Bool.orb_true_iff, !scan_set_In. apply Hz.
Qed.

Lemma icd9IsASingle_union_witness :
  icd9IsASingle " e950" "eVvE"
  = icd9IsASingle " e950" "Vv" || icd9IsASingle " e950" "Ee".
Proof.
  apply (icd9IsASingle_union " e950" "Vv" "Ee" "eVvE").
  intros c. simpl. tauto.
Defined.

(** ** Further properties of the batch classifier *)

Section Narrowing.


End Narrowing.

(** X6.  For a vector of at most [INT_MAX] strings [icd9IsA] returns a
    vector of the same length whose element at each index is the answer of
    [icd9IsASingle] for the string at that index, negated when [invert] is
    set. *)
Theorem icd9IsA_elementwise (sv : list string) (x : string) (invert : bool) :
  (vector_size sv <= INT_MAX)%Z ->
  exists out,
    icd9IsA sv x invert = Returned out /\
    length out = length sv /\
    forall i s, sv !! i = Some s ->
      out !! i = Some (xorb invert (icd9IsASingle s x)).
Proof.
  intros Hfit. rewrite icd9IsA_fits by assumption.
  eexists. split; [reflexivity|]. split; [apply length_fmap|].
  intros i s Hs. now rewrite list_lookup_fmap, Hs.
Qed.

Lemma icd9IsA_elementwise_witness :
  exists out,
    icd9IsA ["E950"; " v10"; "  "]%string "Vv" true = Returned out /\
    length out = 3%nat /\
    forall i s, ["E950"; " v10"; "  "]%string !! i = Some s ->
      out !! i = Some (xorb true (icd9IsASingle s "Vv")).
Proof.
  apply (icd9IsA_elementwise ["E950"; " v10"; "  "]%string "Vv" true).
  discriminate.
Defined.


(** X8.  Classifying two vectors and joining the results is the same as
    classifying the joined vector, as long as the joined vector has at most
    [INT_MAX] strings. *)
Theorem icd9IsA_app (sv1 sv2 : list string) (x : string) (invert : bool) :
  (vector_size (sv1 ++ sv2)%list <= INT_MAX)%Z ->
  exists out1 out2,
    icd9IsA sv1 x invert = Returned out1 /\
    icd9IsA sv2 x invert = Returned out2 /\
    icd9IsA (sv1 ++ sv2)%list x invert = Returned (out1 ++ out2)%list.
Proof.
  intros Hfit.
  assert (H1 : (vector_size sv1 <= INT_MAX)%Z)
    by (unfold vector_size in *; rewrite length_app in Hfit; lia).
  assert (H2 : (vector_size sv2 <= INT_MAX)%Z)
    by (unfold vector_size in *; rewrite length_app in Hfit; lia).
  rewrite !icd9IsA_fits by assumption.
  do 2 eexists. split; [reflexivity|]. split; [reflexivity|].
  now rewrite fmap_app.
Qed.

Lemma icd9IsA_app_witness :
  exists out1 out2,
    icd9IsA ["V10"; " E950"]%string "V" false = Returned out1 /\
    icd9IsA ["427"]%string "V" false = Returned out2 /\
    icd9IsA (["V10"; " E950"] ++ ["427"])%list%string "V" false
    = Returned (out1 ++ out2)%list.
Proof.
  apply (icd9IsA_app ["V10"; " E950"]%string ["427"]%string "V" false).
  discriminate.
Defined.
